(** * Alterdot consensus parameters: [src/consensus/params.h]

    A shallow embedding of the consensus parameter structures and of the two
    height-dependent selectors of [Consensus::Params], followed by the
    properties of the specification that concern them.

    Integer members ([int], [int64_t], [uint32_t], [uint8_t]) are embedded as
    [Z].  The header only compares and copies them, it performs no arithmetic
    on them, so no wrap-around can occur and the comparison of two machine
    integers coincides with the comparison of their values in [Z].

    The header declares data and two selectors.  The loader of a parameter
    table, the version-bits activation machine and the quorum registry that
    the specification describes are written elsewhere; they are modelled here
    from the specification, over the records of the header, each in a module
    of its own. *)

From Stdlib Require Import ZArith Bool List Lia.
From stdpp Require Import base numbers list gmap strings.

Local Open Scope Z_scope.

(** ** The namespace [Consensus] *)

Module Consensus.

(** [enum DeploymentPos]; [MAX_VERSION_BITS_DEPLOYMENTS] is the enumerator
    that closes the list and therefore counts the deployments. *)
Inductive DeploymentPos : Set :=
  | DEPLOYMENT_TESTDUMMY
  | DEPLOYMENT_CSV
  | DEPLOYMENT_DIP0001
  | DEPLOYMENT_BIP147
  | DEPLOYMENT_DIP0003
  | DEPLOYMENT_DIP0008.

Definition DeploymentPos_index (d : DeploymentPos) : nat :=
  match d with
  | DEPLOYMENT_TESTDUMMY => 0
  | DEPLOYMENT_CSV => 1
  | DEPLOYMENT_DIP0001 => 2
  | DEPLOYMENT_BIP147 => 3
  | DEPLOYMENT_DIP0003 => 4
  | DEPLOYMENT_DIP0008 => 5
  end%nat.

Definition MAX_VERSION_BITS_DEPLOYMENTS : nat := 6.

(** [struct BIP9Deployment] *)
Record BIP9Deployment : Set := {
  bit : Z;
  nStartTime : Z;
  nTimeout : Z;
  nWindowSize : Z;
  nThreshold : Z
}.

(** [enum LLMQType : uint8_t] *)
Inductive LLMQType : Set :=
  | LLMQ_NONE
  | LLMQ_50_60
  | LLMQ_400_60
  | LLMQ_400_85
  | LLMQ_10_60
  | LLMQ_30_80
  | LLMQ_5_60.

(** The enumerator values written in the declaration. *)
Definition LLMQType_value (t : LLMQType) : Z :=
  match t with
  | LLMQ_NONE => 0xff
  | LLMQ_50_60 => 1
  | LLMQ_400_60 => 2
  | LLMQ_400_85 => 3
  | LLMQ_10_60 => 4
  | LLMQ_30_80 => 6
  | LLMQ_5_60 => 100
  end.

Definition LLMQType_of_value (v : Z) : option LLMQType :=
  if v =? 0xff then Some LLMQ_NONE
  else if v =? 1 then Some LLMQ_50_60
  else if v =? 2 then Some LLMQ_400_60
  else if v =? 3 then Some LLMQ_400_85
  else if v =? 4 then Some LLMQ_10_60
  else if v =? 6 then Some LLMQ_30_80
  else if v =? 100 then Some LLMQ_5_60
  else None.

#[global] Instance LLMQType_eq_dec : EqDecision LLMQType.
Proof. solve_decision. Defined.

#[global] Instance LLMQType_countable : Countable LLMQType.
Proof.
  apply (inj_countable LLMQType_value LLMQType_of_value).
  intros []; reflexivity.
Defined.

(** [struct LLMQParams] *)
Record LLMQParams : Set := {
  type : LLMQType;
  name : string;
  size : Z;
  minSize : Z;
  threshold : Z;
  dkgInterval : Z;
  dkgPhaseBlocks : Z;
  dkgMiningWindowStart : Z;
  dkgMiningWindowEnd : Z;
  dkgBadVotesThreshold : Z;
  signingActiveQuorumCount : Z;
  keepOldConnections : Z
}.

Section Params.

(** [uint256] is declared in [uint256.h]; the structures below only store
    values of it, so it is kept abstract. *)
Context {uint256 : Type}.

(** [struct Params], members in declaration order. *)
Record Params : Type := {
  hashGenesisBlock : uint256;
  hashDevnetGenesisBlock : uint256;
  nHardForkOne : Z;
  nHardForkTwo : Z;
  nHardForkThree : Z;
  nHardForkFour : Z;
  nHardForkFive : Z;
  nHardForkSix : Z;
  nHardForkSeven : Z;
  nHardForkEight : Z;
  nTempDevFundIncreaseEnd : Z;
  nSubsidyHalvingInterval : Z;
  nMasternodePaymentsStartBlock : Z;
  nInstantSendConfirmationsRequired : Z;
  nInstantSendKeepLock : Z;
  nInstantSendSigsRequired : Z;
  nInstantSendSigsTotal : Z;
  nBudgetPaymentsStartBlock : Z;
  nBudgetPaymentsCycleBlocks : Z;
  nBudgetPaymentsWindowBlocks : Z;
  nSuperblockStartBlock : Z;
  nSuperblockStartHash : uint256;
  nSuperblockCycle : Z;
  nGovernanceMinQuorum : Z;
  nGovernanceFilterElements : Z;
  nOldMasternodeCollateral : Z;
  nNewMasternodeCollateral : Z;
  nMasternodeMinimumConfirmations : Z;
  DIP0001Height : Z;
  nIntPhaseTotalBlocks : Z;
  nBlocksPerYear : Z;
  DIP0003Height : Z;
  DIP0003EnforcementHeight : Z;
  DIP0003EnforcementHash : uint256;
  LLMQSwitchHeight : Z;
  DIP0006EnforcementHeight : Z;
  DIP0006EnforcementHash : uint256;
  DIP0008Height : Z;
  DIP0008EnforcementHeight : Z;
  DIP0008EnforcementHash : uint256;
  nRuleChangeActivationThreshold : Z;
  nMinerConfirmationWindow : Z;
  vDeployments : list BIP9Deployment;
  powLimit : uint256;
  fPowAllowMinDifficultyBlocks : bool;
  fPowNoRetargeting : bool;
  nPowTargetTimespan : Z;
  nPowTargetSpacing : Z;
  nDifficultyAdjustmentInterval : Z;
  nOldPowTargetSpacing : Z;
  nNewPowTargetSpacing : Z;
  nMinimumChainWork : uint256;
  defaultAssumeValid : uint256;
  nMinimumDifficultyBlocks : Z;
  nHighSubsidyBlocks : Z;
  nHighSubsidyFactor : Z;
  llmqs : gmap LLMQType LLMQParams;
  llmqChainLocks : LLMQType;
  llmqForInstantSend : LLMQType
}.

(** [int64_t GetCurrentPowTargetSpacing(const int& nHeight) const] *)
Definition GetCurrentPowTargetSpacing (this : Params) (nHeight : Z) : Z :=
  if nHeight >? nHardForkSix this
  then nNewPowTargetSpacing this
  else nOldPowTargetSpacing this.

(** [int GetCurrentMasternodeCollateral(const int& nHeight) const] *)
Definition GetCurrentMasternodeCollateral (this : Params) (nHeight : Z) : Z :=
  if nHeight >? nHardForkSix this
  then nNewMasternodeCollateral this
  else nOldMasternodeCollateral this.

(** Default construction, [Params p;].  Four members carry a default member
    initializer ([nMinimumDifficultyBlocks{0}], [nHighSubsidyBlocks{0}],
    [nHighSubsidyFactor{1}], [llmqForInstantSend{LLMQ_NONE}]) and [llmqs] is
    an empty [std::map].  Every other member is default-initialised: what it
    holds is not fixed by this header, and is taken from [init]. *)
Definition Params_default (init : Params) : Params := {|
  hashGenesisBlock := hashGenesisBlock init;
  hashDevnetGenesisBlock := hashDevnetGenesisBlock init;
  nHardForkOne := nHardForkOne init;
  nHardForkTwo := nHardForkTwo init;
  nHardForkThree := nHardForkThree init;
  nHardForkFour := nHardForkFour init;
  nHardForkFive := nHardForkFive init;
  nHardForkSix := nHardForkSix init;
  nHardForkSeven := nHardForkSeven init;
  nHardForkEight := nHardForkEight init;
  nTempDevFundIncreaseEnd := nTempDevFundIncreaseEnd init;
  nSubsidyHalvingInterval := nSubsidyHalvingInterval init;
  nMasternodePaymentsStartBlock := nMasternodePaymentsStartBlock init;
  nInstantSendConfirmationsRequired := nInstantSendConfirmationsRequired init;
  nInstantSendKeepLock := nInstantSendKeepLock init;
  nInstantSendSigsRequired := nInstantSendSigsRequired init;
  nInstantSendSigsTotal := nInstantSendSigsTotal init;
  nBudgetPaymentsStartBlock := nBudgetPaymentsStartBlock init;
  nBudgetPaymentsCycleBlocks := nBudgetPaymentsCycleBlocks init;
  nBudgetPaymentsWindowBlocks := nBudgetPaymentsWindowBlocks init;
  nSuperblockStartBlock := nSuperblockStartBlock init;
  nSuperblockStartHash := nSuperblockStartHash init;
  nSuperblockCycle := nSuperblockCycle init;
  nGovernanceMinQuorum := nGovernanceMinQuorum init;
  nGovernanceFilterElements := nGovernanceFilterElements init;
  nOldMasternodeCollateral := nOldMasternodeCollateral init;
  nNewMasternodeCollateral := nNewMasternodeCollateral init;
  nMasternodeMinimumConfirmations := nMasternodeMinimumConfirmations init;
  DIP0001Height := DIP0001Height init;
  nIntPhaseTotalBlocks := nIntPhaseTotalBlocks init;
  nBlocksPerYear := nBlocksPerYear init;
  DIP0003Height := DIP0003Height init;
  DIP0003EnforcementHeight := DIP0003EnforcementHeight init;
  DIP0003EnforcementHash := DIP0003EnforcementHash init;
  LLMQSwitchHeight := LLMQSwitchHeight init;
  DIP0006EnforcementHeight := DIP0006EnforcementHeight init;
  DIP0006EnforcementHash := DIP0006EnforcementHash init;
  DIP0008Height := DIP0008Height init;
  DIP0008EnforcementHeight := DIP0008EnforcementHeight init;
  DIP0008EnforcementHash := DIP0008EnforcementHash init;
  nRuleChangeActivationThreshold := nRuleChangeActivationThreshold init;
  nMinerConfirmationWindow := nMinerConfirmationWindow init;
  vDeployments := vDeployments init;
  powLimit := powLimit init;
  fPowAllowMinDifficultyBlocks := fPowAllowMinDifficultyBlocks init;
  fPowNoRetargeting := fPowNoRetargeting init;
  nPowTargetTimespan := nPowTargetTimespan init;
  nPowTargetSpacing := nPowTargetSpacing init;
  nDifficultyAdjustmentInterval := nDifficultyAdjustmentInterval init;
  nOldPowTargetSpacing := nOldPowTargetSpacing init;
  nNewPowTargetSpacing := nNewPowTargetSpacing init;
  nMinimumChainWork := nMinimumChainWork init;
  defaultAssumeValid := defaultAssumeValid init;
  nMinimumDifficultyBlocks := 0;
  nHighSubsidyBlocks := 0;
  nHighSubsidyFactor := 1;
  llmqs := ∅;
  llmqChainLocks := llmqChainLocks init;
  llmqForInstantSend := LLMQ_NONE
|}.

End Params.

Arguments Params : clear implicits.

End Consensus.

Import Consensus.

#[global] Instance DeploymentPos_eq_dec : EqDecision DeploymentPos.
Proof. solve_decision. Defined.

(** ** Ranges of the machine integers

    [int] is the 32-bit and [int64_t] the 64-bit two's complement integer. *)

Definition INT_MIN : Z := - 2 ^ 31.
Definition INT_MAX : Z := 2 ^ 31 - 1.
Definition INT64_MIN : Z := - 2 ^ 63.
Definition INT64_MAX : Z := 2 ^ 63 - 1.

Definition int_range (z : Z) : Prop := INT_MIN <= z <= INT_MAX.
Definition int64_range (z : Z) : Prop := INT64_MIN <= z <= INT64_MAX.

(** ** Network protocol versions: [src/version.h] *)

Definition PROTOCOL_VERSION : Z := 70020.
Definition INIT_PROTO_VERSION : Z := 209.
Definition GETHEADERS_VERSION : Z := 70000.
Definition MIN_PEER_PROTO_VERSION : Z := 70019.
Definition MIN_PEER_PROTO_VERSION_LLMQ_40_55 : Z := 70020.
Definition CADDR_TIME_VERSION : Z := 31402.
Definition BIP0031_VERSION : Z := 60000.
Definition MEMPOOL_GD_VERSION : Z := 60002.
Definition NO_BLOOM_VERSION : Z := 70000.
Definition SENDHEADERS_VERSION : Z := 70000.
Definition DIP0001_PROTOCOL_VERSION : Z := 70208.
Definition SHORT_IDS_BLOCKS_VERSION : Z := 70014.
Definition DMN_PROTO_VERSION : Z := 70013.
Definition LLMQS_PROTO_VERSION : Z := 70015.
Definition SENDDSQUEUE_PROTO_VERSION : Z := 70015.

(** ** Loading a parameter table *)

Module ParameterTable.

(** Modelled from the spec: the loader of the parameter table, which is not
    part of [params.h].  Sections 3, 7 and 8 of the specification: a table
    whose deployment has [threshold > windowSize], or whose quorum type breaks
    [threshold <= minSize <= size],
    [miningWindowStart >= 5 * dkgPhaseBlocks] or
    [miningWindowStart <= miningWindowEnd < dkgInterval], is rejected at load
    with [ConfigInvariantViolation]; any other table is loaded unchanged. *)
Inductive ConfigError : Set :=
  | ConfigInvariantViolation.

(** Modelled from the spec: the outcome of loading, the table or the error
    of section 7. *)
Inductive LoadResult (uint256 : Type) : Type :=
  | Loaded (p : Params uint256)
  | LoadFailed (e : ConfigError).

Arguments Loaded {uint256} p.
Arguments LoadFailed {uint256} e.

(** Modelled from the spec: the invariant of a DeploymentSpec,
    [threshold <= windowSize]. *)
Definition deploymentInvariant (d : BIP9Deployment) : bool :=
  nThreshold d <=? nWindowSize d.

(** Modelled from the spec: the invariants of a QuorumTypeSpec. *)
Definition quorumTypeInvariant (q : LLMQParams) : bool :=
  (threshold q <=? minSize q)
  && (minSize q <=? size q)
  && (5 * dkgPhaseBlocks q <=? dkgMiningWindowStart q)
  && (dkgMiningWindowStart q <=? dkgMiningWindowEnd q)
  && (dkgMiningWindowEnd q <? dkgInterval q).

(** Modelled from the spec: the load-time check, absent from [params.h]. *)
Definition loadParams {uint256 : Type} (table : Params uint256)
  : LoadResult uint256 :=
  if forallb deploymentInvariant (vDeployments table)
     && forallb quorumTypeInvariant (snd <$> map_to_list (llmqs table))
  then Loaded table
  else LoadFailed ConfigInvariantViolation.

End ParameterTable.

(** ** The version-bits activation machine *)

Module DeploymentStateMachine.

(** Modelled from the spec: the states of section 4.2; the machine itself
    lives outside [params.h], which only declares the deployment record it
    reads. *)
Inductive State : Set :=
  | DEFINED
  | STARTED
  | LOCKED_IN
  | ACTIVE
  | FAILED.

(** Modelled from the spec: a confirmation window as the machine sees it,
    the versions of its blocks and the median-time-past of its last block. *)
Record Window : Set := {
  versions : list Z;
  medianTimePast : Z
}.

(** Modelled from the spec: the top three bits of a 32-bit block version. *)
Definition VERSIONBITS_TOP_MASK : Z := 0xE0000000.

(** Modelled from the spec: the signalling prefix, top three bits 001. *)
Definition VERSIONBITS_TOP_BITS : Z := 0x20000000.

(** Modelled from the spec: a block signals for a deployment when its version
    carries the signalling prefix and has the bit of the deployment set. *)
Definition signals (d : BIP9Deployment) (version : Z) : bool :=
  (Z.land version VERSIONBITS_TOP_MASK =? VERSIONBITS_TOP_BITS)
  && negb (Z.land version (Z.shiftl 1 (bit d)) =? 0).

(** Modelled from the spec: the count of signalling blocks in a window. *)
Definition signalingCount (d : BIP9Deployment) (w : Window) : Z :=
  Z.of_nat (length (filter (fun v => signals d v = true) (versions w))).

(** Modelled from the spec: one evaluation of the machine at a window
    boundary.  In [DEFINED] and in [STARTED] the timeout is looked at before
    anything else; [LOCKED_IN] becomes [ACTIVE] one window later; [ACTIVE] and
    [FAILED] are terminal. *)
Definition nextState (d : BIP9Deployment) (s : State) (w : Window) : State :=
  match s with
  | DEFINED =>
      if medianTimePast w >=? nTimeout d then FAILED
      else if medianTimePast w >=? nStartTime d then STARTED
      else DEFINED
  | STARTED =>
      if medianTimePast w >=? nTimeout d then FAILED
      else if signalingCount d w >=? nThreshold d then LOCKED_IN
      else STARTED
  | LOCKED_IN => ACTIVE
  | ACTIVE => ACTIVE
  | FAILED => FAILED
  end.

End DeploymentStateMachine.

(** ** The registry of finalized quorums *)

Module QuorumRegistry.

(** Modelled from the spec: a finalized quorum (section 3).  Hashes, keys and
    masternode identifiers are opaque to the registry and kept as numbers. *)
Record Quorum : Set := {
  quorumType : LLMQType;
  quorumHash : N;
  members : list N;
  thresholdPublicKey : N;
  creationHeight : Z
}.

#[global] Instance Quorum_eq_dec : EqDecision Quorum.
Proof. solve_decision. Defined.

(** Modelled from the spec: the two bounded sequences the registry keeps for
    one quorum type, oldest entry first. *)
Record Registry : Set := {
  active : list Quorum;
  retained : list Quorum
}.

(** Modelled from the spec: the registry before any quorum was finalized. *)
Definition empty : Registry := {| active := []; retained := [] |}.

(** Modelled from the spec: [onQuorumFinalized], which is not in [params.h]
    (the header only declares the two bounds).  The quorum is appended to the
    active list; if that list then exceeds [signingActiveQuorumCount] its
    oldest entry moves to the retained list, and if the retained list then
    exceeds [keepOldConnections] its oldest entry is dropped. *)
Definition onQuorumFinalized (cfg : LLMQParams) (r : Registry) (q : Quorum)
  : Registry :=
  let act := active r ++ [q] in
  if Z.of_nat (length act) >? signingActiveQuorumCount cfg then
    match act with
    | oldest :: rest =>
        let ret := retained r ++ [oldest] in
        {| active := rest;
           retained :=
             if Z.of_nat (length ret) >? keepOldConnections cfg
             then tail ret
             else ret |}
    | [] => {| active := act; retained := retained r |}
    end
  else {| active := act; retained := retained r |}.

(** Modelled from the spec: a sequence of finalized quorums handed to
    [onQuorumFinalized] one after the other. *)
Definition finalizeAll (cfg : LLMQParams) (r : Registry) (qs : list Quorum)
  : Registry :=
  fold_left (onQuorumFinalized cfg) qs r.

(** Modelled from the spec: the bounds of section 3, the active list within
    [signingActiveQuorumCount] and the retained list within
    [keepOldConnections]. *)
Definition within_bounds (cfg : LLMQParams) (r : Registry) : Prop :=
  Z.of_nat (length (active r)) <= signingActiveQuorumCount cfg
  /\ Z.of_nat (length (retained r)) <= keepOldConnections cfg.

End QuorumRegistry.

(** ** Concrete tables *)

Module Samples.

(** The DIP0001 deployment as Dash-derived chains configure it. *)
Definition dip0001 : BIP9Deployment := {|
  bit := 1;
  nStartTime := 1508025600;
  nTimeout := 1539561600;
  nWindowSize := 4032;
  nThreshold := 3226
|}.

(** A deployment that asks for more signalling blocks than its window has. *)
Definition overfull : BIP9Deployment := {|
  bit := 2;
  nStartTime := 1508025600;
  nTimeout := 1539561600;
  nWindowSize := 100;
  nThreshold := 101
|}.

(** A small deployment for walking through the activation machine. *)
Definition tiny : BIP9Deployment := {|
  bit := 0;
  nStartTime := 1000;
  nTimeout := 2000;
  nWindowSize := 4;
  nThreshold := 3
|}.

Definition llmq50_60 : LLMQParams := {|
  type := LLMQ_50_60;
  name := "llmq_50_60";
  size := 50;
  minSize := 40;
  threshold := 30;
  dkgInterval := 24;
  dkgPhaseBlocks := 2;
  dkgMiningWindowStart := 10;
  dkgMiningWindowEnd := 18;
  dkgBadVotesThreshold := 40;
  signingActiveQuorumCount := 24;
  keepOldConnections := 25
|}.

Definition llmq5_60 : LLMQParams := {|
  type := LLMQ_5_60;
  name := "llmq_5_60";
  size := 5;
  minSize := 3;
  threshold := 3;
  dkgInterval := 24;
  dkgPhaseBlocks := 2;
  dkgMiningWindowStart := 10;
  dkgMiningWindowEnd := 18;
  dkgBadVotesThreshold := 8;
  signingActiveQuorumCount := 2;
  keepOldConnections := 3
|}.

(** A table with the given hard-fork height, epoch constants, deployments and
    quorum types; members that play no part here are zero. *)
Definition table (hf6 oldSpacing newSpacing oldCollateral newCollateral : Z)
    (deployments : list BIP9Deployment) (quorums : gmap LLMQType LLMQParams)
  : Params N := {|
  hashGenesisBlock := 0%N;
  hashDevnetGenesisBlock := 0%N;
  nHardForkOne := 0;
  nHardForkTwo := 0;
  nHardForkThree := 0;
  nHardForkFour := 0;
  nHardForkFive := 0;
  nHardForkSix := hf6;
  nHardForkSeven := 0;
  nHardForkEight := 0;
  nTempDevFundIncreaseEnd := 0;
  nSubsidyHalvingInterval := 0;
  nMasternodePaymentsStartBlock := 0;
  nInstantSendConfirmationsRequired := 0;
  nInstantSendKeepLock := 0;
  nInstantSendSigsRequired := 0;
  nInstantSendSigsTotal := 0;
  nBudgetPaymentsStartBlock := 0;
  nBudgetPaymentsCycleBlocks := 0;
  nBudgetPaymentsWindowBlocks := 0;
  nSuperblockStartBlock := 0;
  nSuperblockStartHash := 0%N;
  nSuperblockCycle := 0;
  nGovernanceMinQuorum := 0;
  nGovernanceFilterElements := 0;
  nOldMasternodeCollateral := oldCollateral;
  nNewMasternodeCollateral := newCollateral;
  nMasternodeMinimumConfirmations := 0;
  DIP0001Height := 0;
  nIntPhaseTotalBlocks := 0;
  nBlocksPerYear := 0;
  DIP0003Height := 0;
  DIP0003EnforcementHeight := 0;
  DIP0003EnforcementHash := 0%N;
  LLMQSwitchHeight := 0;
  DIP0006EnforcementHeight := 0;
  DIP0006EnforcementHash := 0%N;
  DIP0008Height := 0;
  DIP0008EnforcementHeight := 0;
  DIP0008EnforcementHash := 0%N;
  nRuleChangeActivationThreshold := 0;
  nMinerConfirmationWindow := 0;
  vDeployments := deployments;
  powLimit := 0%N;
  fPowAllowMinDifficultyBlocks := false;
  fPowNoRetargeting := false;
  nPowTargetTimespan := 0;
  nPowTargetSpacing := 0;
  nDifficultyAdjustmentInterval := 0;
  nOldPowTargetSpacing := oldSpacing;
  nNewPowTargetSpacing := newSpacing;
  nMinimumChainWork := 0%N;
  defaultAssumeValid := 0%N;
  nMinimumDifficultyBlocks := 7;
  nHighSubsidyBlocks := 0;
  nHighSubsidyFactor := 1;
  llmqs := quorums;
  llmqChainLocks := LLMQ_50_60;
  llmqForInstantSend := LLMQ_50_60
|}.

Definition quorums : gmap LLMQType LLMQParams :=
  <[LLMQ_50_60 := llmq50_60]> (<[LLMQ_5_60 := llmq5_60]> ∅).

(** Spacing goes from 120 to 300 seconds and the collateral from 1000 to
    10000 coins after height 500000. *)
Definition main : Params N :=
  table 500000 120 300 1000 10000 [dip0001; tiny] quorums.

(** The same table with one deployment whose threshold exceeds its window. *)
Definition malformed : Params N :=
  table 500000 120 300 1000 10000 [dip0001; overfull] quorums.

(** A window of four blocks, three of which signal bit 0, whose
    median-time-past is the timeout of [tiny]. *)
Definition lastWindow : DeploymentStateMachine.Window := {|
  DeploymentStateMachine.versions :=
    [0x20000001; 0x20000001; 0x20000000; 0x20000001];
  DeploymentStateMachine.medianTimePast := 2000
|}.

Definition quorumAt (h : Z) : QuorumRegistry.Quorum := {|
  QuorumRegistry.quorumType := LLMQ_5_60;
  QuorumRegistry.quorumHash := Z.to_N h;
  QuorumRegistry.members := [1; 2; 3; 4; 5]%N;
  QuorumRegistry.thresholdPublicKey := 0%N;
  QuorumRegistry.creationHeight := h
|}.

(** A table whose [vDeployments] has one entry per [DeploymentPos], as the
    array of the header has. *)
Definition deploymentAt (b : Z) : BIP9Deployment := {|
  bit := b;
  nStartTime := 1508025600;
  nTimeout := 1539561600;
  nWindowSize := 4032;
  nThreshold := 3226
|}.

Definition complete : Params N :=
  table 500000 120 300 1000 10000
    (deploymentAt <$> [28; 0; 1; 2; 3; 4]) quorums.

(** The hard fork placed at the largest [int]: no height lies beyond it. *)
Definition neverForked : Params N :=
  table INT_MAX 120 300 1000 10000 [] quorums.

(** The hard fork placed below the genesis block. *)
Definition forkedAtGenesis : Params N :=
  table (-1) 120 300 1000 10000 [] quorums.

End Samples.

(** ** The height-dependent selectors *)

Section Selectors.

Context {uint256 : Type}.
Implicit Types (p q : Params uint256) (h : Z).

Lemma GetCurrentPowTargetSpacing_gt p h :
  h > nHardForkSix p ->
  GetCurrentPowTargetSpacing p h = nNewPowTargetSpacing p.
Proof.
  intros Hgt. unfold GetCurrentPowTargetSpacing.
  destruct (Z.gtb_spec h (nHardForkSix p)); [reflexivity | lia].
Qed.

Lemma GetCurrentPowTargetSpacing_le p h :
  h <= nHardForkSix p ->
  GetCurrentPowTargetSpacing p h = nOldPowTargetSpacing p.
Proof.
  intros Hle. unfold GetCurrentPowTargetSpacing.
  destruct (Z.gtb_spec h (nHardForkSix p)); [lia | reflexivity].
Qed.

Lemma GetCurrentMasternodeCollateral_gt p h :
  h > nHardForkSix p ->
  GetCurrentMasternodeCollateral p h = nNewMasternodeCollateral p.
Proof.
  intros Hgt. unfold GetCurrentMasternodeCollateral.
  destruct (Z.gtb_spec h (nHardForkSix p)); [reflexivity | lia].
Qed.

Lemma GetCurrentMasternodeCollateral_le p h :
  h <= nHardForkSix p ->
  GetCurrentMasternodeCollateral p h = nOldMasternodeCollateral p.
Proof.
  intros Hle. unfold GetCurrentMasternodeCollateral.
  destruct (Z.gtb_spec h (nHardForkSix p)); [lia | reflexivity].
Qed.

(** C1: for every height, [GetCurrentPowTargetSpacing] returns
    [nNewPowTargetSpacing] when the height is greater than [nHardForkSix] and
    [nOldPowTargetSpacing] when it is less than or equal to it. *)
Theorem pow_target_spacing_by_height p h :
  (h > nHardForkSix p ->
     GetCurrentPowTargetSpacing p h = nNewPowTargetSpacing p)
  /\ (h <= nHardForkSix p ->
     GetCurrentPowTargetSpacing p h = nOldPowTargetSpacing p).
Proof.
  split;
    [apply GetCurrentPowTargetSpacing_gt | apply GetCurrentPowTargetSpacing_le].
Qed.

(** C2: for every height, [GetCurrentMasternodeCollateral] returns
    [nNewMasternodeCollateral] when the height is greater than [nHardForkSix]
    and [nOldMasternodeCollateral] when it is less than or equal to it. *)
Theorem masternode_collateral_by_height p h :
  (h > nHardForkSix p ->
     GetCurrentMasternodeCollateral p h = nNewMasternodeCollateral p)
  /\ (h <= nHardForkSix p ->
     GetCurrentMasternodeCollateral p h = nOldMasternodeCollateral p).
Proof.
  split;
    [apply GetCurrentMasternodeCollateral_gt
    | apply GetCurrentMasternodeCollateral_le].
Qed.

(** C3: the spacing and the collateral switch at the same boundary.  At every
    height the two selectors take the same branch of the same test on
    [nHardForkSix]: either both return the new constant or both return the old
    one.  Hence, whenever old and new constants differ, the spacing returned
    is the new one if and only if the collateral returned is the new one. *)
Theorem spacing_and_collateral_switch_together p h :
  ((h > nHardForkSix p
    /\ GetCurrentPowTargetSpacing p h = nNewPowTargetSpacing p
    /\ GetCurrentMasternodeCollateral p h = nNewMasternodeCollateral p)
   \/ (h <= nHardForkSix p
    /\ GetCurrentPowTargetSpacing p h = nOldPowTargetSpacing p
    /\ GetCurrentMasternodeCollateral p h = nOldMasternodeCollateral p))
  /\ (nOldPowTargetSpacing p <> nNewPowTargetSpacing p ->
      nOldMasternodeCollateral p <> nNewMasternodeCollateral p ->
      (GetCurrentPowTargetSpacing p h = nNewPowTargetSpacing p
       <-> GetCurrentMasternodeCollateral p h = nNewMasternodeCollateral p)).
Proof.
  destruct (Z_gt_le_dec h (nHardForkSix p)) as [Hgt | Hle].
  - pose proof (GetCurrentPowTargetSpacing_gt p h Hgt) as Hs.
    pose proof (GetCurrentMasternodeCollateral_gt p h Hgt) as Hc.
    split; [left; auto | intros _ _; split; auto].
  - pose proof (GetCurrentPowTargetSpacing_le p h Hle) as Hs.
    pose proof (GetCurrentMasternodeCollateral_le p h Hle) as Hc.
    split; [right; auto |].
    intros Hds Hdc. rewrite Hs, Hc. split; intros He; congruence.
Qed.

(** C4: the selection is a total function of the height and of three members
    of the table each.  Two evaluations on tables that agree on
    [nHardForkSix] and on the old and new constant return the same value,
    whatever the other members hold (in particular two evaluations on the same
    table); and every height has a result. *)
Theorem epoch_selection_deterministic p q h :
  (nHardForkSix p = nHardForkSix q ->
   nOldPowTargetSpacing p = nOldPowTargetSpacing q ->
   nNewPowTargetSpacing p = nNewPowTargetSpacing q ->
   GetCurrentPowTargetSpacing p h = GetCurrentPowTargetSpacing q h)
  /\ (nHardForkSix p = nHardForkSix q ->
   nOldMasternodeCollateral p = nOldMasternodeCollateral q ->
   nNewMasternodeCollateral p = nNewMasternodeCollateral q ->
   GetCurrentMasternodeCollateral p h = GetCurrentMasternodeCollateral q h)
  /\ (exists spacing collateral : Z,
   GetCurrentPowTargetSpacing p h = spacing
   /\ GetCurrentMasternodeCollateral p h = collateral
   /\ (spacing = nNewPowTargetSpacing p \/ spacing = nOldPowTargetSpacing p)
   /\ (collateral = nNewMasternodeCollateral p
       \/ collateral = nOldMasternodeCollateral p)).
Proof.
  repeat split.
  - intros Hf Ho Hn. unfold GetCurrentPowTargetSpacing.
    rewrite Hf, Ho, Hn. reflexivity.
  - intros Hf Ho Hn. unfold GetCurrentMasternodeCollateral.
    rewrite Hf, Ho, Hn. reflexivity.
  - exists (GetCurrentPowTargetSpacing p h),
      (GetCurrentMasternodeCollateral p h).
    unfold GetCurrentPowTargetSpacing, GetCurrentMasternodeCollateral.
    destruct (h >? nHardForkSix p); auto.
Qed.

(** C5: at height [nHardForkSix] itself both selectors still return the old
    constants, at [nHardForkSix + 1] they return the new ones, and in general
    the new constants are returned exactly from [nHardForkSix + 1] onward. *)
Theorem old_constants_at_boundary p h :
  GetCurrentPowTargetSpacing p (nHardForkSix p) = nOldPowTargetSpacing p
  /\ GetCurrentMasternodeCollateral p (nHardForkSix p)
     = nOldMasternodeCollateral p
  /\ GetCurrentPowTargetSpacing p (nHardForkSix p + 1)
     = nNewPowTargetSpacing p
  /\ GetCurrentMasternodeCollateral p (nHardForkSix p + 1)
     = nNewMasternodeCollateral p
  /\ GetCurrentPowTargetSpacing p h
     = (if h >=? nHardForkSix p + 1
        then nNewPowTargetSpacing p else nOldPowTargetSpacing p)
  /\ GetCurrentMasternodeCollateral p h
     = (if h >=? nHardForkSix p + 1
        then nNewMasternodeCollateral p else nOldMasternodeCollateral p).
Proof.
  repeat split.
  - apply GetCurrentPowTargetSpacing_le. lia.
  - apply GetCurrentMasternodeCollateral_le. lia.
  - apply GetCurrentPowTargetSpacing_gt. lia.
  - apply GetCurrentMasternodeCollateral_gt. lia.
  - destruct (Z.geb_spec h (nHardForkSix p + 1)).
    + apply GetCurrentPowTargetSpacing_gt. lia.
    + apply GetCurrentPowTargetSpacing_le. lia.
  - destruct (Z.geb_spec h (nHardForkSix p + 1)).
    + apply GetCurrentMasternodeCollateral_gt. lia.
    + apply GetCurrentMasternodeCollateral_le. lia.
Qed.

(** C10: [LLMQ_NONE] has the value [0xff], which the underlying [uint8_t]
    holds; no other enumerator of [LLMQType] has that value or is equal to
    it; and a default-constructed [Params] has [llmqForInstantSend] equal to
    [LLMQ_NONE]. *)
Theorem LLMQ_NONE_is_the_default (init : Params uint256) :
  LLMQType_value LLMQ_NONE = 0xff
  /\ Forall (fun t => t <> LLMQ_NONE /\ LLMQType_value t <> 0xff)
       [LLMQ_50_60; LLMQ_400_60; LLMQ_400_85;
        LLMQ_10_60; LLMQ_30_80; LLMQ_5_60]
  /\ (forall t, LLMQType_value t = 0xff <-> t = LLMQ_NONE)
  /\ (forall t, 0 <= LLMQType_value t < 2 ^ 8)
  /\ llmqForInstantSend (Params_default init) = LLMQ_NONE.
Proof.
  split; [reflexivity |].
  split; [repeat constructor; discriminate |].
  split; [| split; [| reflexivity]].
  - intros t. split.
    + destruct t; simpl; intros He; first [reflexivity | discriminate He].
    + intros ->. reflexivity.
  - intros []; simpl; lia.
Qed.

End Selectors.

(** *** The selectors on a concrete table *)

Lemma pow_target_spacing_by_height_witness :
  (500001 > nHardForkSix Samples.main
   /\ GetCurrentPowTargetSpacing Samples.main 500001 = 300)
  /\ (500000 <= nHardForkSix Samples.main
   /\ GetCurrentPowTargetSpacing Samples.main 500000 = 120).
Proof.
  split.
  - assert (Hgt : 500001 > nHardForkSix Samples.main) by reflexivity.
    split; [exact Hgt |].
    exact (proj1 (pow_target_spacing_by_height Samples.main 500001) Hgt).
  - assert (Hle : 500000 <= nHardForkSix Samples.main)
      by (vm_compute; discriminate).
    split; [exact Hle |].
    exact (proj2 (pow_target_spacing_by_height Samples.main 500000) Hle).
Defined.

Lemma masternode_collateral_by_height_witness :
  (500001 > nHardForkSix Samples.main
   /\ GetCurrentMasternodeCollateral Samples.main 500001 = 10000)
  /\ (500000 <= nHardForkSix Samples.main
   /\ GetCurrentMasternodeCollateral Samples.main 500000 = 1000).
Proof.
  split.
  - assert (Hgt : 500001 > nHardForkSix Samples.main) by reflexivity.
    split; [exact Hgt |].
    exact (proj1 (masternode_collateral_by_height Samples.main 500001) Hgt).
  - assert (Hle : 500000 <= nHardForkSix Samples.main)
      by (vm_compute; discriminate).
    split; [exact Hle |].
    exact (proj2 (masternode_collateral_by_height Samples.main 500000) Hle).
Defined.

Lemma spacing_and_collateral_switch_together_witness :
  (nOldPowTargetSpacing Samples.main <> nNewPowTargetSpacing Samples.main
   /\ nOldMasternodeCollateral Samples.main
      <> nNewMasternodeCollateral Samples.main)
  /\ (GetCurrentPowTargetSpacing Samples.main 500001 = 300
      <-> GetCurrentMasternodeCollateral Samples.main 500001 = 10000)
  /\ (GetCurrentPowTargetSpacing Samples.main 500000 = 300
      <-> GetCurrentMasternodeCollateral Samples.main 500000 = 10000).
Proof.
  assert (Hs : nOldPowTargetSpacing Samples.main
               <> nNewPowTargetSpacing Samples.main)
    by (vm_compute; discriminate).
  assert (Hc : nOldMasternodeCollateral Samples.main
               <> nNewMasternodeCollateral Samples.main)
    by (vm_compute; discriminate).
  split; [split; assumption |].
  split.
  - exact (proj2 (spacing_and_collateral_switch_together Samples.main 500001)
             Hs Hc).
  - exact (proj2 (spacing_and_collateral_switch_together Samples.main 500000)
             Hs Hc).
Defined.

(** [Params_default Samples.main] differs from [Samples.main] in
    [nMinimumDifficultyBlocks], [llmqs] and [llmqForInstantSend], none of
    which the selectors read. *)
Lemma epoch_selection_deterministic_witness :
  nMinimumDifficultyBlocks (Params_default Samples.main)
    <> nMinimumDifficultyBlocks Samples.main
  /\ GetCurrentPowTargetSpacing Samples.main 500001
     = GetCurrentPowTargetSpacing (Params_default Samples.main) 500001
  /\ GetCurrentMasternodeCollateral Samples.main 500001
     = GetCurrentMasternodeCollateral (Params_default Samples.main) 500001.
Proof.
  split; [vm_compute; discriminate |].
  destruct (epoch_selection_deterministic
              Samples.main (Params_default Samples.main) 500001)
    as (Hs & Hc & _).
  split.
  - apply Hs; reflexivity.
  - apply Hc; reflexivity.
Defined.

(** ** Loading: rejected and accepted tables *)

Section Loading.

Import ParameterTable.

Context {uint256 : Type}.
Implicit Types (table p : Params uint256).

Lemma deploymentInvariant_true d :
  deploymentInvariant d = true <-> nThreshold d <= nWindowSize d.
Proof. unfold deploymentInvariant. apply Z.leb_le. Qed.

Lemma quorumTypeInvariant_true q :
  quorumTypeInvariant q = true <->
  (threshold q <= minSize q <= size q)
  /\ dkgMiningWindowStart q >= 5 * dkgPhaseBlocks q
  /\ (dkgMiningWindowStart q <= dkgMiningWindowEnd q < dkgInterval q).
Proof.
  unfold quorumTypeInvariant.
  rewrite !andb_true_iff, !Z.leb_le, Z.ltb_lt. lia.
Qed.

Lemma loadParams_Loaded table p :
  loadParams table = Loaded p ->
  p = table
  /\ forallb deploymentInvariant (vDeployments table) = true
  /\ forallb quorumTypeInvariant (snd <$> map_to_list (llmqs table)) = true.
Proof.
  unfold loadParams.
  destruct (forallb deploymentInvariant (vDeployments table)) eqn:Hd;
    destruct (forallb quorumTypeInvariant (snd <$> map_to_list (llmqs table)))
      eqn:Hq; simpl; intros Heq; try discriminate Heq.
  injection Heq as <-. auto.
Qed.

(** C6: a table holding a deployment whose [nThreshold] exceeds its
    [nWindowSize] fails to load with [ConfigInvariantViolation], and every
    deployment of a table that did load satisfies
    [nThreshold <= nWindowSize]. *)
Theorem threshold_within_window_at_load table :
  ((exists d, d ∈ vDeployments table /\ nThreshold d > nWindowSize d) ->
   loadParams table = LoadFailed ConfigInvariantViolation)
  /\ (forall p, loadParams table = Loaded p ->
      forall d, d ∈ vDeployments p -> nThreshold d <= nWindowSize d).
Proof.
  split.
  - intros (d & Hin & Hgt). unfold loadParams.
    destruct (forallb deploymentInvariant (vDeployments table)) eqn:Hd;
      [| reflexivity].
    rewrite forallb_forall in Hd.
    apply list_elem_of_In, Hd, deploymentInvariant_true in Hin. lia.
  - intros p Hload d Hin.
    apply loadParams_Loaded in Hload as (-> & Hd & _).
    rewrite forallb_forall in Hd.
    apply deploymentInvariant_true, Hd, list_elem_of_In, Hin.
Qed.

(** C7: every entry of the [llmqs] mapping of a loaded table satisfies
    [threshold <= minSize <= size],
    [dkgMiningWindowStart >= 5 * dkgPhaseBlocks] and
    [dkgMiningWindowStart <= dkgMiningWindowEnd < dkgInterval], and the
    mapping holds each quorum type at most once. *)
Theorem llmq_entries_well_formed table p :
  loadParams table = Loaded p ->
  (forall t q, llmqs p !! t = Some q ->
     (threshold q <= minSize q <= size q)
     /\ dkgMiningWindowStart q >= 5 * dkgPhaseBlocks q
     /\ (dkgMiningWindowStart q <= dkgMiningWindowEnd q < dkgInterval q))
  /\ NoDup (fst <$> map_to_list (llmqs p))
  /\ (forall t q q', llmqs p !! t = Some q -> llmqs p !! t = Some q' -> q = q').
Proof.
  intros Hload.
  apply loadParams_Loaded in Hload as (-> & _ & Hq).
  rewrite forallb_forall in Hq.
  split; [| split].
  - intros t q Hlook. apply quorumTypeInvariant_true, Hq, list_elem_of_In.
    apply (list_elem_of_fmap_2' snd _ (t, q)); [| reflexivity].
    apply elem_of_map_to_list, Hlook.
  - apply NoDup_fst_map_to_list.
  - intros t q q' H1 H2. congruence.
Qed.

End Loading.

Lemma threshold_within_window_at_load_witness :
  ((Samples.overfull ∈ vDeployments Samples.malformed
    /\ nThreshold Samples.overfull > nWindowSize Samples.overfull)
   /\ ParameterTable.loadParams Samples.malformed
      = ParameterTable.LoadFailed ParameterTable.ConfigInvariantViolation)
  /\ (ParameterTable.loadParams Samples.main
      = ParameterTable.Loaded Samples.main
      /\ Samples.tiny ∈ vDeployments Samples.main
      /\ nThreshold Samples.tiny <= nWindowSize Samples.tiny).
Proof.
  assert (Hin : Samples.overfull ∈ vDeployments Samples.malformed)
    by (apply list_elem_of_In; simpl; auto).
  assert (Hgt : nThreshold Samples.overfull > nWindowSize Samples.overfull)
    by reflexivity.
  assert (Hload : ParameterTable.loadParams Samples.main
                  = ParameterTable.Loaded Samples.main)
    by (vm_compute; reflexivity).
  assert (Hin' : Samples.tiny ∈ vDeployments Samples.main)
    by (apply list_elem_of_In; simpl; auto).
  split.
  - split; [split; assumption |].
    apply (proj1 (threshold_within_window_at_load Samples.malformed)).
    exists Samples.overfull. split; assumption.
  - split; [exact Hload |]. split; [exact Hin' |].
    exact (proj2 (threshold_within_window_at_load Samples.main)
             Samples.main Hload Samples.tiny Hin').
Defined.

Lemma llmq_entries_well_formed_witness :
  ParameterTable.loadParams Samples.main = ParameterTable.Loaded Samples.main
  /\ llmqs Samples.main !! LLMQ_5_60 = Some Samples.llmq5_60
  /\ (threshold Samples.llmq5_60 <= minSize Samples.llmq5_60
        <= size Samples.llmq5_60)
  /\ dkgMiningWindowStart Samples.llmq5_60
     >= 5 * dkgPhaseBlocks Samples.llmq5_60
  /\ (dkgMiningWindowStart Samples.llmq5_60
        <= dkgMiningWindowEnd Samples.llmq5_60
        < dkgInterval Samples.llmq5_60).
Proof.
  assert (Hload : ParameterTable.loadParams Samples.main
                  = ParameterTable.Loaded Samples.main)
    by (vm_compute; reflexivity).
  assert (Hlook : llmqs Samples.main !! LLMQ_5_60 = Some Samples.llmq5_60)
    by (vm_compute; reflexivity).
  split; [exact Hload |]. split; [exact Hlook |].
  exact (proj1 (llmq_entries_well_formed Samples.main Samples.main Hload)
           LLMQ_5_60 Samples.llmq5_60 Hlook).
Defined.

(** ** Activation: the timeout comes first *)

Section Activation.

Import DeploymentStateMachine.

(** Once the window's median-time-past has reached the timeout, a deployment
    in [STARTED] fails whatever its blocks signalled. *)
Lemma nextState_STARTED_timeout d w :
  medianTimePast w >= nTimeout d -> nextState d STARTED w = FAILED.
Proof.
  intros Hto. simpl.
  destruct (Z.geb_spec (medianTimePast w) (nTimeout d)); [reflexivity | lia].
Qed.

(** Before the timeout, reaching the threshold locks the deployment in. *)
Lemma nextState_STARTED_lock_in d w :
  medianTimePast w < nTimeout d ->
  signalingCount d w >= nThreshold d ->
  nextState d STARTED w = LOCKED_IN.
Proof.
  intros Hto Hcount. simpl.
  destruct (Z.geb_spec (medianTimePast w) (nTimeout d)); [lia |].
  destruct (Z.geb_spec (signalingCount d w) (nThreshold d));
    [reflexivity | lia].
Qed.

(** C8: for a window in [STARTED] whose median-time-past is greater than or
    equal to the timeout while the signalling count reaches the threshold,
    the resulting state is [FAILED] and not [LOCKED_IN]. *)
Theorem timeout_precedes_lock_in d w :
  medianTimePast w >= nTimeout d ->
  signalingCount d w >= nThreshold d ->
  nextState d STARTED w = FAILED /\ nextState d STARTED w <> LOCKED_IN.
Proof.
  intros Hto _.
  rewrite (nextState_STARTED_timeout d w Hto).
  split; [reflexivity | discriminate].
Qed.

End Activation.

Lemma timeout_precedes_lock_in_witness :
  (DeploymentStateMachine.medianTimePast Samples.lastWindow
     >= nTimeout Samples.tiny
   /\ DeploymentStateMachine.signalingCount Samples.tiny Samples.lastWindow
     >= nThreshold Samples.tiny)
  /\ DeploymentStateMachine.nextState Samples.tiny
       DeploymentStateMachine.STARTED Samples.lastWindow
     = DeploymentStateMachine.FAILED.
Proof.
  assert (Hto : DeploymentStateMachine.medianTimePast Samples.lastWindow
                >= nTimeout Samples.tiny)
    by (vm_compute; discriminate).
  assert (Hcount : DeploymentStateMachine.signalingCount Samples.tiny
                     Samples.lastWindow >= nThreshold Samples.tiny)
    by (vm_compute; discriminate).
  split; [split; assumption |].
  exact (proj1 (timeout_precedes_lock_in Samples.tiny Samples.lastWindow
                  Hto Hcount)).
Defined.

(** ** The registry stays within its bounds *)

Section Registry.

Import QuorumRegistry.

Variable cfg : LLMQParams.

Lemma within_bounds_empty :
  0 <= signingActiveQuorumCount cfg -> 0 <= keepOldConnections cfg ->
  within_bounds cfg empty.
Proof. intros Hn Hk. unfold within_bounds. simpl. lia. Qed.

Lemma length_tail_snoc (l : list Quorum) (x : Quorum) :
  length (tail (l ++ [x])) = length l.
Proof. destruct l; simpl; [reflexivity |]. rewrite length_app. simpl. lia. Qed.

Lemma onQuorumFinalized_within_bounds r q :
  0 <= signingActiveQuorumCount cfg -> 0 <= keepOldConnections cfg ->
  within_bounds cfg r -> within_bounds cfg (onQuorumFinalized cfg r q).
Proof.
  intros Hn Hk [Ha Hr]. unfold within_bounds, onQuorumFinalized.
  destruct (Z.gtb_spec (Z.of_nat (length (active r ++ [q])))
              (signingActiveQuorumCount cfg)) as [Hover | Hfits].
  - assert (Hlen : length (tail (active r ++ [q])) = length (active r))
      by apply length_tail_snoc.
    destruct (active r ++ [q]) as [| oldest rest] eqn:Hact.
    { destruct (active r); discriminate Hact. }
    simpl in Hlen. simpl. split; [lia |].
    destruct (Z.gtb_spec (Z.of_nat (length (retained r ++ [oldest])))
                (keepOldConnections cfg)) as [Hover' | Hfits'].
    + rewrite length_tail_snoc. lia.
    + lia.
  - simpl. split; [lia | exact Hr].
Qed.

Lemma finalizeAll_within_bounds qs : forall r,
  0 <= signingActiveQuorumCount cfg -> 0 <= keepOldConnections cfg ->
  within_bounds cfg r -> within_bounds cfg (finalizeAll cfg r qs).
Proof.
  induction qs as [| q qs IH]; intros r Hn Hk Hr; simpl; [exact Hr |].
  apply IH; [exact Hn | exact Hk |].
  apply onQuorumFinalized_within_bounds; assumption.
Qed.

(** While the active list has room, finalized quorums only pile up in it. *)
Lemma finalizeAll_room qs : forall a ret,
  Z.of_nat (length a + length qs) <= signingActiveQuorumCount cfg ->
  finalizeAll cfg {| active := a; retained := ret |} qs
  = {| active := a ++ qs; retained := ret |}.
Proof.
  induction qs as [| q qs IH]; intros a ret Hroom; simpl.
  - rewrite app_nil_r. reflexivity.
  - unfold onQuorumFinalized. simpl active. simpl retained.
    destruct (Z.gtb_spec (Z.of_nat (length (a ++ [q])))
                (signingActiveQuorumCount cfg)) as [Hover | Hfits].
    + rewrite length_app in Hover. simpl in Hover, Hroom. lia.
    + fold (finalizeAll cfg {| active := a ++ [q]; retained := ret |} qs).
      rewrite IH.
      * rewrite <- app_assoc. reflexivity.
      * rewrite length_app. simpl in *. lia.
Qed.

Lemma finalizeAll_snoc r qs q :
  finalizeAll cfg r (qs ++ [q])
  = onQuorumFinalized cfg (finalizeAll cfg r qs) q.
Proof. unfold finalizeAll. rewrite fold_left_app. reflexivity. Qed.

(** One quorum more than the active list may hold. *)
Lemma finalizeAll_one_too_many q0 rest :
  Z.of_nat (length rest) = signingActiveQuorumCount cfg ->
  finalizeAll cfg empty (q0 :: rest)
  = {| active := rest;
       retained := if keepOldConnections cfg >=? 1 then [q0] else [] |}.
Proof.
  intros Hlen.
  destruct (exists_last (l := q0 :: rest)) as (front & last & Hsplit);
    [discriminate |].
  assert (Hfront : S (length rest) = S (length front)).
  { change (length (q0 :: rest) = S (length front)).
    rewrite Hsplit, length_app. simpl. lia. }
  rewrite Hsplit, finalizeAll_snoc. unfold empty.
  rewrite finalizeAll_room by (simpl; lia).
  unfold onQuorumFinalized. simpl active. simpl retained.
  rewrite <- Hsplit.
  destruct (Z.gtb_spec (Z.of_nat (length (q0 :: rest)))
              (signingActiveQuorumCount cfg)) as [Hover | Hfits];
    [| simpl in Hfits; lia].
  f_equal.
  destruct (Z.gtb_spec (Z.of_nat (length ([] ++ [q0])))
              (keepOldConnections cfg)) as [Hover' | Hfits'];
    destruct (Z.geb_spec (keepOldConnections cfg) 1);
    simpl in *; first [reflexivity | lia].
Qed.

(** An entry leaves the registry only through an overflow of both lists. *)
Lemma onQuorumFinalized_evicts r q x :
  x ∈ active r ++ retained r ++ [q] ->
  x ∉ active (onQuorumFinalized cfg r q)
      ++ retained (onQuorumFinalized cfg r q) ->
  Z.of_nat (length (active r ++ [q])) > signingActiveQuorumCount cfg
  /\ Z.of_nat (length (retained r) + 1) > keepOldConnections cfg.
Proof.
  unfold onQuorumFinalized.
  destruct (Z.gtb_spec (Z.of_nat (length (active r ++ [q])))
              (signingActiveQuorumCount cfg)) as [Hover | Hfits].
  - destruct (active r ++ [q]) as [| oldest rest] eqn:Hact.
    { destruct (active r); discriminate Hact. }
    simpl active. simpl retained.
    intros Hin Hout.
    assert (Hin' : x ∈ (oldest :: rest) ++ retained r).
    { rewrite <- Hact. rewrite !elem_of_app in *. tauto. }
    rewrite length_app in *. simpl length in *.
    destruct (Z.gtb_spec (Z.of_nat (length (retained r) + 1))
                (keepOldConnections cfg)) as [Hover' | Hfits'].
    + split; lia.
    + exfalso. apply Hout.
      rewrite !elem_of_app, !elem_of_cons in *.
      rewrite elem_of_nil. tauto.
  - simpl. intros Hin Hout. exfalso. apply Hout.
    rewrite !elem_of_app in *. tauto.
Qed.

(** C9: every [onQuorumFinalized] keeps the registry within its bounds, so
    after any sequence of finalized quorums the active list holds at most
    [signingActiveQuorumCount] quorums and the retained list at most
    [keepOldConnections]; finalizing [signingActiveQuorumCount + 1] quorums
    leaves the last [signingActiveQuorumCount] of them active and moves the
    oldest to the retained list (where it stays if that list may hold an
    entry at all); and an entry is dropped from the registry only when the
    retained list overflows too. *)
Theorem registry_bounds_maintained :
  0 <= signingActiveQuorumCount cfg ->
  0 <= keepOldConnections cfg ->
  (forall r q,
     within_bounds cfg r -> within_bounds cfg (onQuorumFinalized cfg r q))
  /\ (forall qs,
        Z.of_nat (length (active (finalizeAll cfg empty qs)))
          <= signingActiveQuorumCount cfg
        /\ Z.of_nat (length (retained (finalizeAll cfg empty qs)))
          <= keepOldConnections cfg)
  /\ (forall q0 rest,
        Z.of_nat (length (q0 :: rest)) = signingActiveQuorumCount cfg + 1 ->
        active (finalizeAll cfg empty (q0 :: rest)) = rest
        /\ Z.of_nat (length (active (finalizeAll cfg empty (q0 :: rest))))
           = signingActiveQuorumCount cfg
        /\ retained (finalizeAll cfg empty (q0 :: rest))
           = if keepOldConnections cfg >=? 1 then [q0] else [])
  /\ (forall r q x,
        x ∈ active r ++ retained r ++ [q] ->
        x ∉ active (onQuorumFinalized cfg r q)
            ++ retained (onQuorumFinalized cfg r q) ->
        Z.of_nat (length (active r ++ [q])) > signingActiveQuorumCount cfg
        /\ Z.of_nat (length (retained r) + 1) > keepOldConnections cfg).
Proof.
  intros Hn Hk. split; [| split; [| split]].
  - intros r q. apply onQuorumFinalized_within_bounds; assumption.
  - intros qs.
    apply (finalizeAll_within_bounds qs empty Hn Hk
             (within_bounds_empty Hn Hk)).
  - intros q0 rest Hlen.
    assert (Hrest : Z.of_nat (length rest) = signingActiveQuorumCount cfg)
      by (simpl length in Hlen; lia).
    rewrite (finalizeAll_one_too_many q0 rest Hrest). simpl. auto.
  - apply onQuorumFinalized_evicts.
Qed.

End Registry.

Lemma registry_bounds_maintained_witness :
  (0 <= signingActiveQuorumCount Samples.llmq5_60
   /\ 0 <= keepOldConnections Samples.llmq5_60)
  /\ QuorumRegistry.active
       (QuorumRegistry.finalizeAll Samples.llmq5_60 QuorumRegistry.empty
          [Samples.quorumAt 0; Samples.quorumAt 24; Samples.quorumAt 48])
     = [Samples.quorumAt 24; Samples.quorumAt 48]
  /\ QuorumRegistry.retained
       (QuorumRegistry.finalizeAll Samples.llmq5_60 QuorumRegistry.empty
          [Samples.quorumAt 0; Samples.quorumAt 24; Samples.quorumAt 48])
     = [Samples.quorumAt 0].
Proof.
  assert (Hn : 0 <= signingActiveQuorumCount Samples.llmq5_60)
    by (vm_compute; discriminate).
  assert (Hk : 0 <= keepOldConnections Samples.llmq5_60)
    by (vm_compute; discriminate).
  split; [split; assumption |].
  destruct (registry_bounds_maintained Samples.llmq5_60 Hn Hk)
    as (_ & _ & Hmore & _).
  destruct (Hmore (Samples.quorumAt 0)
              [Samples.quorumAt 24; Samples.quorumAt 48] eq_refl)
    as (Hact & _ & Hret).
  split; [exact Hact | exact Hret].
Defined.

(** *** Walking the models *)

(** Seven quorums through a registry that holds two active and three
    retained: the last two are active, the three before them are retained,
    the first two are gone. *)
Example registry_after_seven :
  QuorumRegistry.finalizeAll Samples.llmq5_60 QuorumRegistry.empty
    (Samples.quorumAt <$> [0; 24; 48; 72; 96; 120; 144])
  = {| QuorumRegistry.active := Samples.quorumAt <$> [120; 144];
       QuorumRegistry.retained := Samples.quorumAt <$> [48; 72; 96] |}.
Proof. vm_compute. reflexivity. Qed.

(** The same window one second before the timeout locks the deployment in. *)
Example lock_in_before_timeout :
  DeploymentStateMachine.nextState Samples.tiny DeploymentStateMachine.STARTED
    {| DeploymentStateMachine.versions :=
         DeploymentStateMachine.versions Samples.lastWindow;
       DeploymentStateMachine.medianTimePast := 1999 |}
  = DeploymentStateMachine.LOCKED_IN.
Proof. reflexivity. Qed.

(** A version without the 001 prefix, or without the bit, does not signal. *)
Example signals_needs_prefix_and_bit :
  DeploymentStateMachine.signals Samples.tiny 0x20000001 = true
  /\ DeploymentStateMachine.signals Samples.tiny 0x60000001 = false
  /\ DeploymentStateMachine.signals Samples.tiny 0x20000002 = false
  /\ DeploymentStateMachine.signals Samples.tiny 1 = false.
Proof. repeat split. Qed.

(** The selectors on the two sides of the hard fork. *)
Example selectors_around_the_fork :
  GetCurrentPowTargetSpacing Samples.main 500000 = 120
  /\ GetCurrentPowTargetSpacing Samples.main 500001 = 300
  /\ GetCurrentMasternodeCollateral Samples.main 500000 = 1000
  /\ GetCurrentMasternodeCollateral Samples.main 500001 = 10000
  /\ GetCurrentPowTargetSpacing Samples.main (-1) = 120.
Proof. repeat split. Qed.

(** ** More on the selectors *)

Section SelectorShape.

Context {uint256 : Type}.
Implicit Types (p : Params uint256) (h : Z).

(** X1: the switch is permanent.  Once a selector has returned the new
    constant at some height it returns it at every later height, as long as
    the old constant is a different value. *)
Theorem selectors_never_switch_back p h1 h2 :
  h1 <= h2 ->
  (nOldPowTargetSpacing p <> nNewPowTargetSpacing p ->
   GetCurrentPowTargetSpacing p h1 = nNewPowTargetSpacing p ->
   GetCurrentPowTargetSpacing p h2 = nNewPowTargetSpacing p)
  /\ (nOldMasternodeCollateral p <> nNewMasternodeCollateral p ->
   GetCurrentMasternodeCollateral p h1 = nNewMasternodeCollateral p ->
   GetCurrentMasternodeCollateral p h2 = nNewMasternodeCollateral p).
Proof.
  intros Hle. split; intros Hd H1.
  - apply GetCurrentPowTargetSpacing_gt.
    destruct (Z_gt_le_dec h1 (nHardForkSix p)) as [Hgt | Hold]; [lia |].
    rewrite (GetCurrentPowTargetSpacing_le p h1 Hold) in H1. contradiction.
  - apply GetCurrentMasternodeCollateral_gt.
    destruct (Z_gt_le_dec h1 (nHardForkSix p)) as [Hgt | Hold]; [lia |].
    rewrite (GetCurrentMasternodeCollateral_le p h1 Hold) in H1.
    contradiction.
Qed.

(** X2: when the new constant is not smaller than the old one, the value a
    selector returns never decreases with the height. *)
Theorem selectors_monotone_in_height p h1 h2 :
  h1 <= h2 ->
  (nOldPowTargetSpacing p <= nNewPowTargetSpacing p ->
   GetCurrentPowTargetSpacing p h1 <= GetCurrentPowTargetSpacing p h2)
  /\ (nOldMasternodeCollateral p <= nNewMasternodeCollateral p ->
   GetCurrentMasternodeCollateral p h1
   <= GetCurrentMasternodeCollateral p h2).
Proof.
  intros Hle.
  unfold GetCurrentPowTargetSpacing, GetCurrentMasternodeCollateral.
  destruct (Z.gtb_spec h1 (nHardForkSix p));
    destruct (Z.gtb_spec h2 (nHardForkSix p)); split; intros; lia.
Qed.

(** X3: a selector returns a value between the old and the new constant, so
    the result fits the return type ([int64_t] for the spacing, [int] for the
    collateral) whenever the two members it chooses from do. *)
Theorem selectors_within_constants p h :
  (Z.min (nOldPowTargetSpacing p) (nNewPowTargetSpacing p)
     <= GetCurrentPowTargetSpacing p h
     <= Z.max (nOldPowTargetSpacing p) (nNewPowTargetSpacing p))
  /\ (Z.min (nOldMasternodeCollateral p) (nNewMasternodeCollateral p)
     <= GetCurrentMasternodeCollateral p h
     <= Z.max (nOldMasternodeCollateral p) (nNewMasternodeCollateral p))
  /\ (int64_range (nOldPowTargetSpacing p) ->
      int64_range (nNewPowTargetSpacing p) ->
      int64_range (GetCurrentPowTargetSpacing p h))
  /\ (int_range (nOldMasternodeCollateral p) ->
      int_range (nNewMasternodeCollateral p) ->
      int_range (GetCurrentMasternodeCollateral p h)).
Proof.
  unfold GetCurrentPowTargetSpacing, GetCurrentMasternodeCollateral.
  destruct (h >? nHardForkSix p);
    (split; [lia | split; [lia | split; intros Ho Hn; assumption]]).
Qed.

(** X4: the two extreme placements of the hard fork.  With [nHardForkSix] at
    the largest [int] no [int] height ever gets the new constants; with
    [nHardForkSix] negative every height from the genesis block on gets
    them. *)
Theorem hard_fork_six_extremes p h :
  (nHardForkSix p = INT_MAX -> int_range h ->
   GetCurrentPowTargetSpacing p h = nOldPowTargetSpacing p
   /\ GetCurrentMasternodeCollateral p h = nOldMasternodeCollateral p)
  /\ (nHardForkSix p < 0 -> 0 <= h ->
   GetCurrentPowTargetSpacing p h = nNewPowTargetSpacing p
   /\ GetCurrentMasternodeCollateral p h = nNewMasternodeCollateral p).
Proof.
  split.
  - intros Hmax [_ Hh]. rewrite <- Hmax in Hh.
    split;
      [apply GetCurrentPowTargetSpacing_le
      | apply GetCurrentMasternodeCollateral_le]; exact Hh.
  - intros Hneg Hh.
    split;
      [apply GetCurrentPowTargetSpacing_gt
      | apply GetCurrentMasternodeCollateral_gt]; lia.
Qed.

(** ** The deployment array *)

Lemma DeploymentPos_index_lt d :
  (DeploymentPos_index d < MAX_VERSION_BITS_DEPLOYMENTS)%nat.
Proof. destruct d; unfold MAX_VERSION_BITS_DEPLOYMENTS; simpl; lia. Qed.

Lemma DeploymentPos_index_inj d d' :
  DeploymentPos_index d = DeploymentPos_index d' -> d = d'.
Proof.
  destruct d, d'; simpl; intros He; first [reflexivity | discriminate He].
Qed.

(** X5: [DeploymentPos] names the slots of [vDeployments] one to one.  In an
    array of [MAX_VERSION_BITS_DEPLOYMENTS] entries every enumerator is an
    index within bounds, every slot is the index of an enumerator, and
    writing the slot of one deployment leaves the slots of all others as they
    were. *)
Theorem deployment_slots_one_to_one p :
  length (vDeployments p) = MAX_VERSION_BITS_DEPLOYMENTS ->
  (forall d, is_Some (vDeployments p !! DeploymentPos_index d))
  /\ (forall i, (i < length (vDeployments p))%nat ->
        exists d, DeploymentPos_index d = i)
  /\ (forall d d' x,
        <[DeploymentPos_index d := x]> (vDeployments p)
          !! DeploymentPos_index d'
        = if decide (d = d') then Some x
          else vDeployments p !! DeploymentPos_index d').
Proof.
  intros Hlen. split; [| split].
  - intros d. apply lookup_lt_is_Some. rewrite Hlen.
    apply DeploymentPos_index_lt.
  - intros i Hi. rewrite Hlen in Hi. unfold MAX_VERSION_BITS_DEPLOYMENTS in Hi.
    destruct i as [| [| [| [| [| [| i]]]]]]; [| | | | | | lia].
    + exists DEPLOYMENT_TESTDUMMY. reflexivity.
    + exists DEPLOYMENT_CSV. reflexivity.
    + exists DEPLOYMENT_DIP0001. reflexivity.
    + exists DEPLOYMENT_BIP147. reflexivity.
    + exists DEPLOYMENT_DIP0003. reflexivity.
    + exists DEPLOYMENT_DIP0008. reflexivity.
  - intros d d' x. destruct (decide (d = d')) as [<- | Hne].
    + apply list_lookup_insert_eq. rewrite Hlen.
      apply DeploymentPos_index_lt.
    + apply list_lookup_insert_ne. intros He.
      apply Hne, DeploymentPos_index_inj, He.
Qed.

End SelectorShape.

(** ** Quorum types as map keys *)

(** X6: the enumerators of [LLMQType] have pairwise distinct values, so each
    is a key of its own in the [llmqs] map; every value fits the underlying
    [uint8_t], and none is zero. *)
Theorem LLMQType_values_distinct :
  Inj (=) (=) LLMQType_value
  /\ (forall t, 1 <= LLMQType_value t <= 0xff).
Proof.
  split.
  - intros t t'.
    destruct t, t'; simpl; intros He; first [reflexivity | discriminate He].
  - intros []; simpl; lia.
Qed.

(** ** Protocol versions *)

(** X7: a peer that is not disconnected for its age, one whose version is at
    least [MIN_PEER_PROTO_VERSION], is past every feature version of
    [version.h] but [DIP0001_PROTOCOL_VERSION]. *)
Theorem accepted_peer_has_every_feature (v : Z) :
  v >= MIN_PEER_PROTO_VERSION ->
  v >= INIT_PROTO_VERSION
  /\ v >= GETHEADERS_VERSION
  /\ v >= CADDR_TIME_VERSION
  /\ v > BIP0031_VERSION
  /\ v >= MEMPOOL_GD_VERSION
  /\ v >= NO_BLOOM_VERSION
  /\ v >= SENDHEADERS_VERSION
  /\ v >= SHORT_IDS_BLOCKS_VERSION
  /\ v >= DMN_PROTO_VERSION
  /\ v >= LLMQS_PROTO_VERSION
  /\ v >= SENDDSQUEUE_PROTO_VERSION.
Proof.
  unfold MIN_PEER_PROTO_VERSION, INIT_PROTO_VERSION, GETHEADERS_VERSION,
    CADDR_TIME_VERSION, BIP0031_VERSION, MEMPOOL_GD_VERSION, NO_BLOOM_VERSION,
    SENDHEADERS_VERSION, SHORT_IDS_BLOCKS_VERSION, DMN_PROTO_VERSION,
    LLMQS_PROTO_VERSION, SENDDSQUEUE_PROTO_VERSION.
  intros Hv. repeat split; lia.
Qed.

(** X8: the node's own [PROTOCOL_VERSION] passes both minimum peer versions;
    the minimum that applies after the hard fork is the stricter one and
    turns away exactly the peers at [MIN_PEER_PROTO_VERSION]; and
    [DIP0001_PROTOCOL_VERSION] lies above the node's own version. *)
Theorem minimum_peer_versions_ordered (v : Z) :
  MIN_PEER_PROTO_VERSION <= MIN_PEER_PROTO_VERSION_LLMQ_40_55
  /\ MIN_PEER_PROTO_VERSION_LLMQ_40_55 <= PROTOCOL_VERSION
  /\ (MIN_PEER_PROTO_VERSION <= v < MIN_PEER_PROTO_VERSION_LLMQ_40_55
      <-> v = MIN_PEER_PROTO_VERSION)
  /\ PROTOCOL_VERSION < DIP0001_PROTOCOL_VERSION.
Proof.
  unfold MIN_PEER_PROTO_VERSION, MIN_PEER_PROTO_VERSION_LLMQ_40_55,
    PROTOCOL_VERSION, DIP0001_PROTOCOL_VERSION.
  repeat split; lia.
Qed.

(** *** On concrete tables *)

Lemma selectors_never_switch_back_witness :
  (500001 <= 600000
   /\ nOldPowTargetSpacing Samples.main <> nNewPowTargetSpacing Samples.main
   /\ GetCurrentPowTargetSpacing Samples.main 500001
      = nNewPowTargetSpacing Samples.main)
  /\ GetCurrentPowTargetSpacing Samples.main 600000 = 300.
Proof.
  assert (Hle : 500001 <= 600000) by (vm_compute; discriminate).
  assert (Hd : nOldPowTargetSpacing Samples.main
               <> nNewPowTargetSpacing Samples.main)
    by (vm_compute; discriminate).
  assert (H1 : GetCurrentPowTargetSpacing Samples.main 500001
               = nNewPowTargetSpacing Samples.main) by reflexivity.
  split; [repeat split; assumption |].
  exact (proj1 (selectors_never_switch_back Samples.main 500001 600000 Hle)
           Hd H1).
Defined.

Lemma selectors_monotone_in_height_witness :
  (0 <= 600000
   /\ nOldPowTargetSpacing Samples.main <= nNewPowTargetSpacing Samples.main)
  /\ GetCurrentPowTargetSpacing Samples.main 0
     <= GetCurrentPowTargetSpacing Samples.main 600000.
Proof.
  assert (Hle : 0 <= 600000) by (vm_compute; discriminate).
  assert (Hc : nOldPowTargetSpacing Samples.main
               <= nNewPowTargetSpacing Samples.main)
    by (vm_compute; discriminate).
  split; [split; assumption |].
  exact (proj1 (selectors_monotone_in_height Samples.main 0 600000 Hle) Hc).
Defined.

Lemma selectors_within_constants_witness :
  (int_range (nOldMasternodeCollateral Samples.main)
   /\ int_range (nNewMasternodeCollateral Samples.main))
  /\ int_range (GetCurrentMasternodeCollateral Samples.main 500001).
Proof.
  assert (Ho : int_range (nOldMasternodeCollateral Samples.main))
    by (split; vm_compute; discriminate).
  assert (Hn : int_range (nNewMasternodeCollateral Samples.main))
    by (split; vm_compute; discriminate).
  split; [split; assumption |].
  destruct (selectors_within_constants Samples.main 500001)
    as (_ & _ & _ & Hc).
  exact (Hc Ho Hn).
Defined.

Lemma hard_fork_six_extremes_witness :
  ((nHardForkSix Samples.neverForked = INT_MAX /\ int_range INT_MAX)
   /\ GetCurrentPowTargetSpacing Samples.neverForked INT_MAX = 120)
  /\ ((nHardForkSix Samples.forkedAtGenesis < 0 /\ 0 <= 0)
   /\ GetCurrentPowTargetSpacing Samples.forkedAtGenesis 0 = 300).
Proof.
  assert (Hmax : nHardForkSix Samples.neverForked = INT_MAX) by reflexivity.
  assert (Hr : int_range INT_MAX) by (split; vm_compute; discriminate).
  assert (Hneg : nHardForkSix Samples.forkedAtGenesis < 0) by reflexivity.
  assert (Hz : 0 <= 0) by (vm_compute; discriminate).
  split.
  - split; [split; assumption |].
    exact (proj1 (proj1 (hard_fork_six_extremes Samples.neverForked INT_MAX)
                    Hmax Hr)).
  - split; [split; assumption |].
    exact (proj1 (proj2 (hard_fork_six_extremes Samples.forkedAtGenesis 0)
                    Hneg Hz)).
Defined.

Lemma deployment_slots_one_to_one_witness :
  length (vDeployments Samples.complete) = MAX_VERSION_BITS_DEPLOYMENTS
  /\ is_Some (vDeployments Samples.complete
                !! DeploymentPos_index DEPLOYMENT_DIP0008)
  /\ <[DeploymentPos_index DEPLOYMENT_CSV := Samples.tiny]>
       (vDeployments Samples.complete) !! DeploymentPos_index DEPLOYMENT_DIP0003
     = vDeployments Samples.complete !! DeploymentPos_index DEPLOYMENT_DIP0003.
Proof.
  assert (Hlen : length (vDeployments Samples.complete)
                 = MAX_VERSION_BITS_DEPLOYMENTS) by reflexivity.
  destruct (deployment_slots_one_to_one Samples.complete Hlen)
    as (Hin & _ & Hupd).
  split; [exact Hlen |]. split; [apply Hin |].
  exact (Hupd DEPLOYMENT_CSV DEPLOYMENT_DIP0003 Samples.tiny).
Defined.

Lemma accepted_peer_has_every_feature_witness :
  PROTOCOL_VERSION >= MIN_PEER_PROTO_VERSION
  /\ PROTOCOL_VERSION >= LLMQS_PROTO_VERSION.
Proof.
  assert (Hv : PROTOCOL_VERSION >= MIN_PEER_PROTO_VERSION)
    by (vm_compute; discriminate).
  split; [exact Hv |].
  destruct (accepted_peer_has_every_feature PROTOCOL_VERSION Hv)
    as (_ & _ & _ & _ & _ & _ & _ & _ & _ & Hl & _).
  exact Hl.
Defined.
